(** * Hotel reservation system: persistence and entity managers

    A shallow embedding of [reservation_system.py] and the properties of its
    load / update / save cycle.

    Python values are restricted to what a flat JSON record can hold after a
    round trip through [json.dump] / [json.load]: [None], booleans, integers
    and strings (floating point numbers and nested containers inside a record
    are not modelled).  A file on disk is represented by what reading it
    gives: bytes that do not decode, text that is not JSON, or the parsed
    JSON document; directories and failing I/O are not modelled.  On this
    universe [json.load] after [json.dump] is the identity, so [save_data]
    stores the document itself. *)

From stdpp Require Import gmap strings list fin_maps.

(** ** Values *)

Inductive value :=
  | VNone
  | VBool (b : bool)
  | VInt (z : Z)
  | VStr (s : string).

Global Instance value_eq_dec : EqDecision value.
Proof. solve_decision. Defined.

(** Python's [==] on these values: [bool] is a subclass of [int], so
    [True == 1] and [False == 0]; values of unrelated types differ. *)
Definition py_eq (a b : value) : bool :=
  match a, b with
  | VNone, VNone => true
  | VBool x, VBool y => Z.eqb (Z.b2z x) (Z.b2z y)
  | VBool x, VInt y => Z.eqb (Z.b2z x) y
  | VInt x, VBool y => Z.eqb x (Z.b2z y)
  | VInt x, VInt y => Z.eqb x y
  | VStr x, VStr y => bool_decide (x = y)
  | _, _ => false
  end.

(** A [dict] with string keys, as [json.load] builds for a JSON object and as
    [__dict__] is for an entity. *)
Abbreviation record := (gmap string value).

(** What [json.load] may return: an array of records, a single object, or a
    scalar. *)
Inductive json :=
  | JArr (l : list record)
  | JObj (r : record)
  | JVal (v : value).

(** ** Files, standard output, exceptions *)

Inductive content :=
  | NotUtf8               (* bytes that are not UTF-8 text *)
  | BadJson               (* text that is not a JSON document *)
  | Doc (j : json).       (* the text of a JSON document *)

Inductive line :=
  | Text (s : string)     (* print(<str>) *)
  | Repr (r : record).    (* print(<dict>) *)

Inductive exn :=
  | KeyError (k : string)
  | TypeError
  | AttributeError
  | UnicodeDecodeError.

Inductive result (A : Type) :=
  | Ok (a : A)
  | Raise (e : exn).
Arguments Ok {A} a.
Arguments Raise {A} e.

Record world := World {
  files : gmap string content;
  stdout : list line
}.

Definition write_file (name : string) (c : content) (w : world) : world :=
  World (<[name := c]> (files w)) (stdout w).

Definition emit (x : line) (w : world) : world :=
  World (files w) (stdout w ++ [x]).

(** ** The monad of effects: state passing with exceptions *)

Definition M (A : Type) : Type := world → result A * world.

Global Instance M_ret : MRet M := λ A a w, (Ok a, w).
Global Instance M_bind : MBind M := λ A B f m w,
  match m w with
  | (Ok a, w') => f a w'
  | (Raise e, w') => (Raise e, w')
  end.

Definition raise {A} (e : exn) : M A := λ w, (Raise e, w).

Definition print (x : line) : M unit := λ w, (Ok (), emit x w).

(** A list comprehension [[h for h in l if p(h)]]. *)
Fixpoint list_comp (p : record → M bool) (l : list record) : M (list record) :=
  match l with
  | [] => mret []
  | h :: t =>
      b ← p h;
      t' ← list_comp p t;
      mret (if b : bool then h :: t' else t')
  end.

(** A [for] loop whose body leaves the elements as they are. *)
Fixpoint for_in (body : record → M unit) (l : list record) : M unit :=
  match l with
  | [] => mret ()
  | h :: t => _ ← body h; for_in body t
  end.

(** A [for] loop whose body may mutate the element it visits; the result is
    the list of the elements after the loop. *)
Fixpoint for_each (body : record → M record) (l : list record) : M (list record) :=
  match l with
  | [] => mret []
  | h :: t =>
      h' ← body h;
      t' ← for_each body t;
      mret (h' :: t')
  end.

(** [h[key]] on a dict. *)
Definition getitem (h : record) (key : string) : M value :=
  match h !! key with
  | Some v => mret v
  | None => raise (KeyError key)
  end.

(** [hotels.append(r)]: only a list has the method. *)
Definition append (hotels : json) (r : record) : M json :=
  match hotels with
  | JArr l => mret (JArr (l ++ [r]))
  | _ => raise AttributeError
  end.

(** The elements a loop over [hotels] visits.  A list yields its records.  A
    dict yields its keys and a string its characters: each is a [str], and
    the first statement of every loop body in the managers subscripts the
    element with the identifier key, which raises [TypeError] on a [str]; so
    only an empty dict or string is iterated without an exception.  The other
    scalars are not iterable. *)
Definition elements (hotels : json) : M (list record) :=
  match hotels with
  | JArr l => mret l
  | JObj r => if bool_decide (r = ∅) then mret [] else raise TypeError
  | JVal (VStr s) => if bool_decide (s = "") then mret [] else raise TypeError
  | JVal _ => raise TypeError
  end.

(** The object bound to [hotels] after a loop that mutated its elements. *)
Definition with_elements (hotels : json) (l : list record) : json :=
  match hotels with
  | JArr _ => JArr l
  | _ => hotels
  end.

(** ** Entities

    [to_dict] returns the instance's [__dict__]: one key per attribute set
    by [__init__]. *)

Class ToDict (A : Type) := to_dict : A → record.

Module Hotel.
Record t := mk {
  hotel_id : value;
  name : value;
  location : value;
  rooms_available : value
}.
End Hotel.

Global Instance Hotel_to_dict : ToDict Hotel.t := λ self,
  <["hotel_id" := Hotel.hotel_id self]>
    (<["name" := Hotel.name self]>
      (<["location" := Hotel.location self]>
        (<["rooms_available" := Hotel.rooms_available self]> ∅))).

Module Customer.
Record t := mk {
  customer_id : value;
  name : value;
  email : value
}.
End Customer.

Global Instance Customer_to_dict : ToDict Customer.t := λ self,
  <["customer_id" := Customer.customer_id self]>
    (<["name" := Customer.name self]>
      (<["email" := Customer.email self]> ∅)).

Module Reservation.
Record t := mk {
  reservation_id : value;
  customer_id : value;
  hotel_id : value
}.
End Reservation.

Global Instance Reservation_to_dict : ToDict Reservation.t := λ self,
  <["reservation_id" := Reservation.reservation_id self]>
    (<["customer_id" := Reservation.customer_id self]>
      (<["hotel_id" := Reservation.hotel_id self]> ∅)).

(** ** Persistence *)

Module Persistence.

Definition load_data (file_name : string) : M json := λ w,
  match files w !! file_name with
  | Some NotUtf8 => (Raise UnicodeDecodeError, w)
  | Some BadJson =>
      (_ ← print (Text ("Error reading " +:+ file_name +:+ ". Invalid format."));
       mret (JArr [])) w
  | Some (Doc j) => (Ok j, w)
  | None => (Ok (JArr []), w)
  end.

Definition save_data (file_name : string) (data : json) : M unit := λ w,
  (Ok (), write_file file_name (Doc data) w).

End Persistence.

(** ** Managers

    The three manager classes differ in their [FILE] and in the key their
    methods compare; the methods are the same code, reached through [cls]. *)

Record Manager := mkManager {
  FILE : string;
  KEY : string
}.

Section manager.
Context (cls : Manager).

Definition create `{ToDict A} (hotel : A) : M unit :=
  hotels ← Persistence.load_data (FILE cls);
  hotels ← append hotels (to_dict hotel);
  Persistence.save_data (FILE cls) hotels.

Definition delete (id : value) : M unit :=
  hotels ← Persistence.load_data (FILE cls);
  hs ← elements hotels;
  hotels ← list_comp (λ h, v ← getitem h (KEY cls); mret (negb (py_eq v id))) hs;
  Persistence.save_data (FILE cls) (JArr hotels).

Definition display (id : value) : M unit :=
  hotels ← Persistence.load_data (FILE cls);
  hs ← elements hotels;
  for_in (λ hotel,
    v ← getitem hotel (KEY cls);
    if py_eq v id then print (Repr hotel) else mret ()) hs.

Definition modify (id : value) (new_info : record) : M unit :=
  hotels ← Persistence.load_data (FILE cls);
  hs ← elements hotels;
  hs ← for_each (λ hotel,
         v ← getitem hotel (KEY cls);
         if py_eq v id then mret (new_info ∪ hotel) else mret hotel) hs;
  Persistence.save_data (FILE cls) (with_elements hotels hs).

End manager.

Module HotelManager.
Definition cls := mkManager "hotels.json" "hotel_id".
Definition create_hotel (hotel : Hotel.t) : M unit := create cls hotel.
Definition delete_hotel (hotel_id : value) : M unit := delete cls hotel_id.
Definition display_hotel (hotel_id : value) : M unit := display cls hotel_id.
Definition modify_hotel (hotel_id : value) (new_info : record) : M unit :=
  modify cls hotel_id new_info.
End HotelManager.

Module CustomerManager.
Definition cls := mkManager "customers.json" "customer_id".
Definition create_customer (customer : Customer.t) : M unit := create cls customer.
Definition display_customer (customer_id : value) : M unit := display cls customer_id.
End CustomerManager.

Module ReservationManager.
Definition cls := mkManager "reservations.json" "reservation_id".
Definition create_reservation (reservation : Reservation.t) : M unit :=
  create cls reservation.
Definition cancel_reservation (reservation_id : value) : M unit :=
  delete cls reservation_id.
End ReservationManager.

(** ** Vocabulary of the specification *)

(** An entry carries identifier [id] when the comparison the managers make,
    [h[key] == id], is true. *)
Definition carries (key : string) (id : value) (h : record) : bool :=
  match h !! key with
  | Some v => py_eq v id
  | None => false
  end.

(** The entries of a collection that carry [id], in order. *)
Definition matching (key : string) (id : value) (l : list record) : list record :=
  List.filter (carries key id) l.

(** The entries of a collection that do not carry [id], in order. *)
Definition others (key : string) (id : value) (l : list record) : list record :=
  List.filter (λ h, negb (carries key id h)) l.

(** A collection of identified records: every entry has the identifier field
    of its entity type. *)
Definition identified (key : string) (l : list record) : Prop :=
  Forall (λ h, is_Some (h !! key)) l.

(** The dict a matching entry becomes under [update(new_info)]. *)
Definition merged (key : string) (id : value) (new_info h : record) : record :=
  if carries key id h then new_info ∪ h else h.

(** The bodies of the loops of [delete], [display] and [modify], named. *)
Definition keep_body (key : string) (id : value) : record → M bool :=
  λ h, v ← getitem h key; mret (negb (py_eq v id)).
Definition show_body (key : string) (id : value) : record → M unit :=
  λ hotel, v ← getitem hotel key;
           if py_eq v id then print (Repr hotel) else mret ().
Definition update_body (key : string) (id : value) (new_info : record)
    : record → M record :=
  λ hotel, v ← getitem hotel key;
           if py_eq v id then mret (new_info ∪ hotel) else mret hotel.



(** The test data of [TestHotelReservationSystem.setUp]. *)
Definition test_hotel : Hotel.t :=
  Hotel.mk (VStr "1") (VStr "Grand Plaza") (VStr "New York") (VInt 100).
Definition test_customer : Customer.t :=
  Customer.mk (VStr "1") (VStr "John Doe") (VStr "john@example.com").
Definition test_reservation : Reservation.t :=
  Reservation.mk (VStr "1") (VStr "1") (VStr "1").


(** Further sample data: a second hotel, a hotel that repeats identifier
    ['1'], and a record without any identifier field. *)
Definition other_hotel : Hotel.t :=
  Hotel.mk (VStr "2") (VStr "Sea View") (VStr "Lisbon") (VInt 20).
Definition twin_hotel : Hotel.t :=
  Hotel.mk (VStr "1") (VStr "Plaza Annex") (VStr "Boston") (VInt 5).
Definition anonymous : record := {[ "name" := VStr "No Id" ]}.
Definition three_hotels : list record :=
  [to_dict test_hotel; to_dict other_hotel; to_dict twin_hotel].

(** A disk with one file and nothing printed yet; a collection on disk. *)
Definition disk (name : string) (c : content) : world :=
  World {[ name := c ]} [].
Definition empty_disk : world := World ∅ [].
Definition stored (cls : Manager) (l : list record) : world :=
  disk (FILE cls) (Doc (JArr l)).

(** ** The test suite

    [unittest] runs each test method after a fresh [setUp] and records
    whether it returned, failed an assertion, or raised. *)

(** [any(h[key] == id for h in hotels)]: the generator is consumed up to the
    first true comparison. *)
Fixpoint any_loop (key : string) (id : value) (l : list record) : M bool :=
  match l with
  | [] => mret false
  | h :: t =>
      v ← getitem h key;
      if py_eq v id then mret true else any_loop key id t
  end.

Definition any_eq (key : string) (id : value) (hotels : json) : M bool :=
  hs ← elements hotels; any_loop key id hs.

Module TestHotelReservationSystem.

Inductive verdict :=
  | Passed
  | Failed                (* AssertionError from assertTrue / assertFalse *)
  | Errored (e : exn).    (* any other exception *)

Definition T : Type := world → verdict * world.

(** A statement of a test method that calls into the system, followed by
    the rest of the method. *)
Definition call {A} (m : M A) (rest : A → T) : T := λ w,
  match m w with
  | (Ok a, w') => rest a w'
  | (Raise e, w') => (Errored e, w')
  end.

Definition assertTrue (b : bool) (rest : T) : T := λ w,
  if b then rest w else (Failed, w).

Definition assertFalse (b : bool) (rest : T) : T := λ w,
  if b then (Failed, w) else rest w.

Definition finish : T := λ w, (Passed, w).

(** [setUp]. *)
Definition hotel : Hotel.t := test_hotel.
Definition customer : Customer.t := test_customer.
Definition reservation : Reservation.t := test_reservation.

Definition test_create_and_display_hotel : T :=
  call (HotelManager.create_hotel hotel) (λ _,
  call (Persistence.load_data "hotels.json") (λ hotels,
  call (any_eq "hotel_id" (VStr "1") hotels) (λ found,
  assertTrue found finish))).

Definition test_create_and_display_customer : T :=
  call (CustomerManager.create_customer customer) (λ _,
  call (Persistence.load_data "customers.json") (λ customers,
  call (any_eq "customer_id" (VStr "1") customers) (λ found,
  assertTrue found finish))).

Definition test_create_and_cancel_reservation : T :=
  call (ReservationManager.create_reservation reservation) (λ _,
  call (Persistence.load_data "reservations.json") (λ reservations,
  call (any_eq "reservation_id" (VStr "1") reservations) (λ found,
  assertTrue found (
  call (ReservationManager.cancel_reservation (VStr "1")) (λ _,
  call (Persistence.load_data "reservations.json") (λ reservations,
  call (any_eq "reservation_id" (VStr "1") reservations) (λ found,
  assertFalse found finish))))))).

(** [unittest.main()]: the test methods in the order of their names, each
    on the files the previous one left. *)
Fixpoint run (tests : list T) : world → list verdict * world := λ w,
  match tests with
  | [] => ([], w)
  | t :: rest =>
      let '(v, w') := t w in
      let '(vs, w'') := run rest w' in
      (v :: vs, w'')
  end.

Definition main : world → list verdict * world :=
  run [ test_create_and_cancel_reservation;
        test_create_and_display_customer;
        test_create_and_display_hotel ].

End TestHotelReservationSystem.

(** A disk holding one collection per manager, and further sample data. *)
Definition three_files (hs cs rs : list record) : world :=
  World (<["hotels.json" := Doc (JArr hs)]>
          (<["customers.json" := Doc (JArr cs)]>
            {[ "reservations.json" := Doc (JArr rs) ]})) [].
Definition other_reservation : Reservation.t :=
  Reservation.mk (VStr "2") (VStr "1") (VStr "2").

(** The files after a manager method: as before, or with the manager's own
    file rewritten. *)
Definition own_file_only (cls : Manager) (w w' : world) : Prop :=
  files w' = files w ∨ ∃ c, files w' = <[FILE cls := c]> (files w).


(** ** Monad equations *)

Lemma bind_ok {A B} (m : M A) (f : A → M B) w a w' :
  m w = (Ok a, w') → (m ≫= f) w = f a w'.
Proof. intros Hm. unfold mbind, M_bind. by rewrite Hm. Qed.

Lemma bind_raise {A B} (m : M A) (f : A → M B) w e w' :
  m w = (Raise e, w') → (m ≫= f) w = (Raise e, w').
Proof. intros Hm. unfold mbind, M_bind. by rewrite Hm. Qed.

Lemma ret_eq {A} (a : A) w : mret (M := M) a w = (Ok a, w).
Proof. reflexivity. Qed.

(** ** Values and identifiers *)

Lemma py_eq_refl v : py_eq v v = true.
Proof.
  destruct v; simpl; try done.
  - apply Z.eqb_refl.
  - apply Z.eqb_refl.
  - by apply bool_decide_eq_true.
Qed.


Lemma carries_lookup key id h v :
  h !! key = Some v → carries key id h = py_eq v id.
Proof. intros Hv. unfold carries. by rewrite Hv. Qed.


Lemma matching_nil_iff key id l :
  matching key id l = [] ↔ Forall (λ h, carries key id h = false) l.
Proof.
  unfold matching. induction l as [|h t IH]; simpl.
  - split; [constructor | done].
  - destruct (carries key id h) eqn:Hc.
    + split; [done |]. intros HF. inversion HF; congruence.
    + rewrite IH. split.
      * by constructor.
      * intros HF. by inversion HF.
Qed.

Lemma others_all key id l :
  matching key id l = [] → others key id l = l.
Proof.
  rewrite matching_nil_iff. unfold others.
  induction 1 as [|h t Hh _ IH]; simpl; [done |].
  rewrite Hh. simpl. by rewrite IH.
Qed.

Lemma others_none_match key id l : matching key id (others key id l) = [].
Proof.
  unfold matching, others. induction l as [|h t IH]; simpl; [done |].
  destruct (carries key id h) eqn:Hc; simpl; [done |]. by rewrite Hc.
Qed.

Lemma others_identified key id l :
  identified key l → identified key (others key id l).
Proof.
  unfold identified, others. induction 1 as [|h t Hh _ IH]; simpl.
  - constructor.
  - destruct (carries key id h); simpl; [done | by constructor].
Qed.

(** ** Persistence *)

Lemma load_data_doc name j w :
  files w !! name = Some (Doc j) → Persistence.load_data name w = (Ok j, w).
Proof. intros Hf. unfold Persistence.load_data. by rewrite Hf. Qed.

Lemma load_data_after_save name j w :
  Persistence.load_data name (write_file name (Doc j) w)
  = (Ok j, write_file name (Doc j) w).
Proof. apply load_data_doc. simpl. apply lookup_insert_eq. Qed.

Lemma load_data_files name w r w' :
  Persistence.load_data name w = (r, w') → files w' = files w.
Proof.
  unfold Persistence.load_data.
  destruct (files w !! name) as [[| |j]|]; intros [= <- <-]; done.
Qed.

Lemma write_file_twice name c1 c2 w :
  write_file name c2 (write_file name c1 w) = write_file name c2 w.
Proof. unfold write_file. simpl. by rewrite insert_insert_eq. Qed.

Lemma write_file_same name c w :
  files w !! name = Some c → write_file name c w = w.
Proof.
  intros Hf. destruct w as [fs out]. unfold write_file. simpl in *.
  by rewrite insert_id.
Qed.

(** ** The loops of the managers *)

Section loops.
Context (key : string) (id : value).

Lemma getitem_some h v w : h !! key = Some v → getitem h key w = (Ok v, w).
Proof. intros Hv. unfold getitem. by rewrite Hv. Qed.

Lemma getitem_none h w :
  h !! key = None → getitem h key w = (Raise (KeyError key), w).
Proof. intros Hv. unfold getitem. by rewrite Hv. Qed.

Lemma not_identified_cons h t :
  is_Some (h !! key) → ¬ identified key (h :: t) → ¬ identified key t.
Proof. intros Hh Hn Ht. apply Hn. by constructor. Qed.

Lemma keep_body_some h v w :
  h !! key = Some v → keep_body key id h w = (Ok (negb (carries key id h)), w).
Proof.
  intros Hv. unfold keep_body. erewrite bind_ok; [|by apply getitem_some].
  by rewrite (carries_lookup _ _ _ _ Hv).
Qed.

Lemma show_body_some h v w :
  h !! key = Some v →
  show_body key id h w
  = (Ok (), if carries key id h then emit (Repr h) w else w).
Proof.
  intros Hv. unfold show_body. erewrite bind_ok; [|by apply getitem_some].
  rewrite (carries_lookup _ _ _ _ Hv). by destruct (py_eq v id).
Qed.

Lemma update_body_some new_info h v w :
  h !! key = Some v →
  update_body key id new_info h w = (Ok (merged key id new_info h), w).
Proof.
  intros Hv. unfold update_body, merged.
  erewrite bind_ok; [|by apply getitem_some].
  rewrite (carries_lookup _ _ _ _ Hv). by destruct (py_eq v id).
Qed.

Lemma list_comp_identified l w :
  identified key l → list_comp (keep_body key id) l w = (Ok (others key id l), w).
Proof.
  induction 1 as [|h t [v Hv] _ IH]; [done |].
  cbn [list_comp]. erewrite bind_ok; [|by eapply keep_body_some].
  erewrite bind_ok; [|exact IH].
  unfold others. simpl. by destruct (carries key id h).
Qed.

Lemma list_comp_missing l w :
  ¬ identified key l → list_comp (keep_body key id) l w = (Raise (KeyError key), w).
Proof.
  induction l as [|h t IH]; intros Hn.
  - destruct Hn. constructor.
  - cbn [list_comp]. destruct (h !! key) as [v|] eqn:Hv.
    + erewrite bind_ok; [|by eapply keep_body_some].
      apply bind_raise, IH. eapply not_identified_cons; [by eexists | done].
    + apply bind_raise. unfold keep_body. by apply bind_raise, getitem_none.
Qed.

Lemma for_each_identified new_info l w :
  identified key l →
  for_each (update_body key id new_info) l w
  = (Ok (merged key id new_info <$> l), w).
Proof.
  induction 1 as [|h t [v Hv] _ IH]; [done |].
  cbn [for_each]. erewrite bind_ok; [|by eapply update_body_some].
  by erewrite bind_ok; [|exact IH].
Qed.

Lemma for_each_missing new_info l w :
  ¬ identified key l →
  for_each (update_body key id new_info) l w = (Raise (KeyError key), w).
Proof.
  induction l as [|h t IH]; intros Hn.
  - destruct Hn. constructor.
  - cbn [for_each]. destruct (h !! key) as [v|] eqn:Hv.
    + erewrite bind_ok; [|by eapply update_body_some].
      apply bind_raise, IH. eapply not_identified_cons; [by eexists | done].
    + apply bind_raise. unfold update_body. by apply bind_raise, getitem_none.
Qed.

Lemma for_in_identified l w :
  identified key l →
  for_in (show_body key id) l w
  = (Ok (), World (files w) (stdout w ++ (Repr <$> matching key id l))).
Proof.
  intros HF. revert w. induction HF as [|h t [v Hv] _ IH]; intros w.
  - simpl. rewrite app_nil_r. by destruct w.
  - cbn [for_in]. erewrite bind_ok; [|by eapply show_body_some].
    rewrite IH. unfold matching. simpl.
    destruct (carries key id h); simpl; [|done].
    by rewrite <- app_assoc.
Qed.

Lemma for_in_missing l w :
  ¬ identified key l →
  ∃ out, for_in (show_body key id) l w
         = (Raise (KeyError key), World (files w) (stdout w ++ out)).
Proof.
  revert w. induction l as [|h t IH]; intros w Hn.
  - destruct Hn. constructor.
  - cbn [for_in]. destruct (h !! key) as [v|] eqn:Hv.
    + assert (¬ identified key t) as Ht.
      { eapply not_identified_cons; [by eexists | done]. }
      erewrite bind_ok; [|by eapply show_body_some].
      destruct (carries key id h).
      * destruct (IH (emit (Repr h) w) Ht) as [out Hout].
        exists (Repr h :: out). rewrite Hout. simpl.
        by rewrite <- app_assoc.
      * destruct (IH w Ht) as [out Hout]. by exists out.
    + exists []. rewrite app_nil_r. destruct w.
      apply bind_raise. unfold show_body. by apply bind_raise, getitem_none.
Qed.

End loops.

(** ** The manager methods on a loaded collection *)

Section manager_facts.
Context (cls : Manager).
Implicit Types (w : world) (l : list record) (id : value).

Lemma create_ok `{ToDict A} (obj : A) w l w0 :
  Persistence.load_data (FILE cls) w = (Ok (JArr l), w0) →
  create cls obj w
  = (Ok (), write_file (FILE cls) (Doc (JArr (l ++ [to_dict obj]))) w0).
Proof. intros Hl. unfold create. by erewrite bind_ok; [|exact Hl]. Qed.

Lemma delete_ok id w l w0 :
  Persistence.load_data (FILE cls) w = (Ok (JArr l), w0) →
  identified (KEY cls) l →
  delete cls id w
  = (Ok (), write_file (FILE cls) (Doc (JArr (others (KEY cls) id l))) w0).
Proof.
  intros Hl HF. unfold delete. erewrite bind_ok; [|exact Hl].
  erewrite bind_ok; [|apply ret_eq].
  by erewrite bind_ok; [|apply (list_comp_identified (KEY cls) id), HF].
Qed.

Lemma delete_missing id w l w0 :
  Persistence.load_data (FILE cls) w = (Ok (JArr l), w0) →
  ¬ identified (KEY cls) l →
  delete cls id w = (Raise (KeyError (KEY cls)), w0).
Proof.
  intros Hl HF. unfold delete. erewrite bind_ok; [|exact Hl].
  erewrite bind_ok; [|apply ret_eq].
  apply bind_raise, (list_comp_missing (KEY cls) id), HF.
Qed.

Lemma display_ok id w l w0 :
  Persistence.load_data (FILE cls) w = (Ok (JArr l), w0) →
  identified (KEY cls) l →
  display cls id w
  = (Ok (), World (files w0) (stdout w0 ++ (Repr <$> matching (KEY cls) id l))).
Proof.
  intros Hl HF. unfold display. erewrite bind_ok; [|exact Hl].
  erewrite bind_ok; [|apply ret_eq].
  apply (for_in_identified (KEY cls) id), HF.
Qed.


Lemma modify_ok id new_info w l w0 :
  Persistence.load_data (FILE cls) w = (Ok (JArr l), w0) →
  identified (KEY cls) l →
  modify cls id new_info w
  = (Ok (), write_file (FILE cls)
              (Doc (JArr (merged (KEY cls) id new_info <$> l))) w0).
Proof.
  intros Hl HF. unfold modify. erewrite bind_ok; [|exact Hl].
  erewrite bind_ok; [|apply ret_eq].
  by erewrite bind_ok; [|apply (for_each_identified (KEY cls) id), HF].
Qed.


End manager_facts.

Lemma identified_dec key l : {identified key l} + {¬ identified key l}.
Proof. unfold identified. apply (decide _). Qed.

Lemma merged_lookup_new key id new_info h k v :
  carries key id h = true → new_info !! k = Some v →
  merged key id new_info h !! k = Some v.
Proof.
  intros Hc Hk. unfold merged. rewrite Hc.
  by apply lookup_union_Some_l.
Qed.



(** ** Identified collections are an invariant

    Every record the managers write has the identifier field of its
    collection: create adds the entity's own [__dict__], delete only drops
    entries, and [update] never removes a key. *)

Lemma identified_app key l r :
  identified key l → is_Some (r !! key) → identified key (l ++ [r]).
Proof.
  intros HF Hr. apply Forall_app. split; [exact HF |]. by repeat constructor.
Qed.


Lemma entity_has_identifier :
  (∀ hotel : Hotel.t, is_Some (to_dict hotel !! KEY HotelManager.cls))
  ∧ (∀ customer : Customer.t,
       is_Some (to_dict customer !! KEY CustomerManager.cls))
  ∧ (∀ reservation : Reservation.t,
       is_Some (to_dict reservation !! KEY ReservationManager.cls)).
Proof. repeat split; intros []; by eexists. Qed.

(** * The claims *)

(** ** C7: loading a file that does not exist *)

(** C7. When no file of the given name exists, [load_data] returns the empty
    collection, raises nothing and prints nothing: the world is unchanged. *)
Theorem load_data_missing_file (file_name : string) (w : world) :
  files w !! file_name = None →
  Persistence.load_data file_name w = (Ok (JArr []), w).
Proof. intros Hf. unfold Persistence.load_data. by rewrite Hf. Qed.

Lemma load_data_missing_file_witness :
  files empty_disk !! "hotels.json" = None
  ∧ Persistence.load_data "hotels.json" empty_disk = (Ok (JArr []), empty_disk).
Proof.
  split; [reflexivity |].
  apply (load_data_missing_file "hotels.json" empty_disk). reflexivity.
Defined.

(** ** C6: loading a file whose content is not a collection *)

(** [load_data] on text that is not JSON: the [except] branch. *)
Lemma load_data_bad_json file_name w :
  files w !! file_name = Some BadJson →
  Persistence.load_data file_name w
  = (Ok (JArr []),
     emit (Text ("Error reading " +:+ file_name +:+ ". Invalid format.")) w).
Proof. intros Hf. unfold Persistence.load_data. by rewrite Hf. Qed.

(** A file holding the JSON number 42 is returned as the number 42, and
    nothing is printed. *)
Example load_data_number :
  Persistence.load_data "hotels.json" (disk "hotels.json" (Doc (JVal (VInt 42))))
  = (Ok (JVal (VInt 42)), disk "hotels.json" (Doc (JVal (VInt 42)))).
Proof. reflexivity. Qed.

(** A file whose bytes are not UTF-8 makes [json.load] raise
    [UnicodeDecodeError], which the handler for [JSONDecodeError] lets
    through. *)
Example load_data_not_utf8 :
  Persistence.load_data "hotels.json" (disk "hotels.json" NotUtf8)
  = (Raise UnicodeDecodeError, disk "hotels.json" NotUtf8).
Proof. reflexivity. Qed.

(** C6, as stated, does not hold: it is not the case that every file whose
    content is not a persisted collection is loaded as the empty collection
    with the error reported.  A file holding the JSON number 42 is neither
    reported nor replaced by the empty collection. *)
Lemma load_data_non_collection_not_reported :
  ¬ (∀ (file_name : string) (w : world) (c : content),
       files w !! file_name = Some c →
       (∀ l, c ≠ Doc (JArr l)) →
       Persistence.load_data file_name w
       = (Ok (JArr []),
          emit (Text ("Error reading " +:+ file_name +:+ ". Invalid format."))
               w)).
Proof.
  intros Hall.
  specialize (Hall "hotels.json"
                (disk "hotels.json" (Doc (JVal (VInt 42))))
                (Doc (JVal (VInt 42)))).
  rewrite load_data_number in Hall.
  discriminate Hall; [reflexivity | intros l; discriminate].
Qed.

(** C6, amended. When the file exists and its content is text that is not a
    JSON document, [load_data] prints the error message and returns the
    empty collection without raising; the files are left as they were. *)
Theorem load_data_invalid_json_reported (file_name : string) (w : world) :
  files w !! file_name = Some BadJson →
  ∃ w',
    Persistence.load_data file_name w = (Ok (JArr []), w')
    ∧ files w' = files w
    ∧ stdout w'
      = stdout w ++ [Text ("Error reading " +:+ file_name +:+ ". Invalid format.")].
Proof.
  intros Hf. eexists. split; [by apply load_data_bad_json | done].
Qed.

Lemma load_data_invalid_json_reported_witness :
  files (disk "hotels.json" BadJson) !! "hotels.json" = Some BadJson
  ∧ ∃ w',
      Persistence.load_data "hotels.json" (disk "hotels.json" BadJson)
      = (Ok (JArr []), w')
      ∧ files w' = files (disk "hotels.json" BadJson)
      ∧ stdout w'
        = stdout (disk "hotels.json" BadJson)
          ++ [Text ("Error reading " +:+ "hotels.json" +:+ ". Invalid format.")].
Proof.
  split; [reflexivity |].
  apply (load_data_invalid_json_reported "hotels.json" (disk "hotels.json" BadJson)).
  reflexivity.
Defined.

(** ** C3: create appends one entry *)



(** A file holding a JSON object instead of an array: the loaded dict has
    no [append], and nothing is saved. *)
Example create_hotel_on_object :
  HotelManager.create_hotel test_hotel (disk "hotels.json" (Doc (JObj anonymous)))
  = (Raise AttributeError, disk "hotels.json" (Doc (JObj anonymous))).
Proof. vm_compute. reflexivity. Qed.

(** The same through [CustomerManager.create_customer], from no file at
    all: the collection then holds the one customer. *)
Example create_customer_first :
  CustomerManager.create_customer test_customer empty_disk
  = (Ok (), stored CustomerManager.cls [to_dict test_customer]).
Proof. vm_compute. reflexivity. Qed.

(** ** C1: create, then load *)



(** The first test of the suite, from no file at all. *)
Example test_create_and_display_hotel :
  (_ ← HotelManager.create_hotel test_hotel;
   Persistence.load_data "hotels.json") empty_disk
  = (Ok (JArr [to_dict test_hotel]), stored HotelManager.cls [to_dict test_hotel]).
Proof. vm_compute. reflexivity. Qed.

(** ** C2: delete removes the matching entries *)

(** C2. On a collection of identified records, delete raises nothing and
    saves the entries that do not carry [id], in their order: an entry is
    saved exactly when it was loaded and does not carry [id].  When no entry
    carries [id] the saved collection is the loaded one. *)
Theorem delete_removes_matching (cls : Manager) (id : value)
    (w w0 : world) (l : list record) :
  Persistence.load_data (FILE cls) w = (Ok (JArr l), w0) →
  identified (KEY cls) l →
  delete cls id w
  = (Ok (), write_file (FILE cls) (Doc (JArr (others (KEY cls) id l))) w0)
  ∧ (∀ h, h ∈ others (KEY cls) id l ↔ h ∈ l ∧ carries (KEY cls) id h = false)
  ∧ (matching (KEY cls) id l = [] → others (KEY cls) id l = l).
Proof.
  intros Hl HF. split; [by apply delete_ok |]. split.
  - intros h. unfold others. rewrite !list_elem_of_In, List.filter_In.
    by rewrite negb_true_iff.
  - apply others_all.
Qed.

Lemma delete_removes_matching_witness :
  Persistence.load_data (FILE HotelManager.cls)
    (stored HotelManager.cls three_hotels)
  = (Ok (JArr three_hotels), stored HotelManager.cls three_hotels)
  ∧ identified (KEY HotelManager.cls) three_hotels
  ∧ HotelManager.delete_hotel (VStr "1") (stored HotelManager.cls three_hotels)
    = (Ok (), stored HotelManager.cls [to_dict other_hotel]).
Proof.
  assert (identified (KEY HotelManager.cls) three_hotels) as HF.
  { unfold identified. repeat (constructor; [by eexists |]). constructor. }
  split; [reflexivity |]. split; [exact HF |].
  destruct (delete_removes_matching HotelManager.cls (VStr "1")
              (stored HotelManager.cls three_hotels)
              (stored HotelManager.cls three_hotels)
              three_hotels eq_refl HF) as [Hd _].
  unfold HotelManager.delete_hotel. rewrite Hd.
  vm_compute. reflexivity.
Defined.

(** When the file exists and no entry carries [id], delete leaves the world
    as it was. *)
Lemma delete_absent_noop cls id w l :
  files w !! FILE cls = Some (Doc (JArr l)) →
  identified (KEY cls) l →
  matching (KEY cls) id l = [] →
  delete cls id w = (Ok (), w).
Proof.
  intros Hf HF Hnone.
  rewrite (delete_ok cls id w l w (load_data_doc _ _ _ Hf) HF).
  rewrite (others_all _ _ _ Hnone). by rewrite write_file_same.
Qed.

(** ** C4 and C5: modify merges the new fields into the matching entries *)





(** Naming the identifier field in [new_info] does change the identifier:
    only the fields left out of [new_info] are kept. *)
Example modify_can_rename :
  HotelManager.modify_hotel (VStr "2") {[ "hotel_id" := VStr "9" ]}
    (stored HotelManager.cls [to_dict other_hotel])
  = (Ok (), stored HotelManager.cls
              [to_dict (Hotel.mk (VStr "9") (VStr "Sea View") (VStr "Lisbon")
                                 (VInt 20))]).
Proof. vm_compute. reflexivity. Qed.

(** ** C8: display *)

(** Two stored hotels with identifier ['1']: both are printed. *)
Example display_hotel_twins :
  HotelManager.display_hotel (VStr "1") (stored HotelManager.cls three_hotels)
  = (Ok (), World (files (stored HotelManager.cls three_hotels))
              [Repr (to_dict test_hotel); Repr (to_dict twin_hotel)]).
Proof. vm_compute. reflexivity. Qed.

(** C8, as stated, does not hold: display does not print just the first
    entry that carries the identifier.  With two stored entries of
    identifier ['1'] it prints two lines, not one. *)
Lemma display_prints_beyond_first :
  ¬ (∀ (cls : Manager) (id : value) (w : world) (l : list record),
       files w !! FILE cls = Some (Doc (JArr l)) →
       identified (KEY cls) l →
       display cls id w
       = (Ok (), World (files w)
                   (stdout w
                    ++ option_list (Repr <$> head (matching (KEY cls) id l))))).
Proof.
  intros Hall.
  assert (identified (KEY HotelManager.cls) three_hotels) as HF.
  { unfold identified. repeat (constructor; [by eexists |]). constructor. }
  specialize (Hall HotelManager.cls (VStr "1")
                (stored HotelManager.cls three_hotels) three_hotels eq_refl HF).
  change (display HotelManager.cls (VStr "1")) with
    (HotelManager.display_hotel (VStr "1")) in Hall.
  rewrite display_hotel_twins in Hall.
  apply (f_equal (λ r, length (stdout r.2))) in Hall.
  vm_compute in Hall. discriminate Hall.
Qed.

(** C8, amended. On a collection of identified records, display prints every
    entry that carries [id], in the order of the collection, and raises
    nothing; it prints nothing when no entry carries [id], and exactly the
    first matching entry when only one matches.  No file is modified. *)
Theorem display_prints_every_match (cls : Manager) (id : value)
    (w w0 : world) (l : list record) :
  Persistence.load_data (FILE cls) w = (Ok (JArr l), w0) →
  identified (KEY cls) l →
  ∃ w',
    display cls id w = (Ok (), w')
    ∧ files w' = files w
    ∧ stdout w' = stdout w0 ++ (Repr <$> matching (KEY cls) id l)
    ∧ (matching (KEY cls) id l = [] → w' = w0)
    ∧ (length (matching (KEY cls) id l) ≤ 1 →
       stdout w'
       = stdout w0 ++ option_list (Repr <$> head (matching (KEY cls) id l))).
Proof.
  intros Hl HF. eexists. split; [by apply display_ok |]. simpl.
  split; [by eapply load_data_files |]. split; [done |]. split.
  - intros ->. simpl. rewrite app_nil_r. by destruct w0.
  - destruct (matching (KEY cls) id l) as [|h [|h' t]]; simpl; [done | done |].
    lia.
Qed.

Lemma display_prints_every_match_witness :
  Persistence.load_data (FILE HotelManager.cls)
    (stored HotelManager.cls three_hotels)
  = (Ok (JArr three_hotels), stored HotelManager.cls three_hotels)
  ∧ identified (KEY HotelManager.cls) three_hotels
  ∧ ∃ w',
      HotelManager.display_hotel (VStr "2") (stored HotelManager.cls three_hotels)
      = (Ok (), w')
      ∧ files w' = files (stored HotelManager.cls three_hotels)
      ∧ stdout w' = [Repr (to_dict other_hotel)].
Proof.
  assert (identified (KEY HotelManager.cls) three_hotels) as HF.
  { unfold identified. repeat (constructor; [by eexists |]). constructor. }
  split; [reflexivity |]. split; [exact HF |].
  destruct (display_prints_every_match HotelManager.cls (VStr "2")
              (stored HotelManager.cls three_hotels)
              (stored HotelManager.cls three_hotels)
              three_hotels eq_refl HF) as (w' & Hd & Hfiles & Hout & _).
  exists w'. split; [exact Hd |]. split; [exact Hfiles |].
  rewrite Hout. vm_compute. reflexivity.
Defined.

(** ** C9: create a reservation, then cancel it *)



(** The third test of the suite, from no file at all. *)
Example test_create_and_cancel_reservation :
  (_ ← ReservationManager.create_reservation test_reservation;
   _ ← ReservationManager.cancel_reservation (VStr "1");
   Persistence.load_data "reservations.json") empty_disk
  = (Ok (JArr []), stored ReservationManager.cls []).
Proof. vm_compute. reflexivity. Qed.

(** ** C10: the identifier field is read without a guard *)



(** A record without the key makes the methods raise even when no entry
    carries the identifier asked for, where a well-formed collection would
    give the silent no-op. *)
Example cancel_reservation_missing_key :
  ReservationManager.cancel_reservation (VStr "7")
    (stored ReservationManager.cls [anonymous])
  = (Raise (KeyError "reservation_id"), stored ReservationManager.cls [anonymous]).
Proof. vm_compute. reflexivity. Qed.

(** Display has printed the earlier match by the time it raises. *)
Example display_hotel_missing_key :
  HotelManager.display_hotel (VStr "1")
    (stored HotelManager.cls [to_dict test_hotel; anonymous])
  = (Raise (KeyError "hotel_id"),
     World (files (stored HotelManager.cls [to_dict test_hotel; anonymous]))
       [Repr (to_dict test_hotel)]).
Proof. vm_compute. reflexivity. Qed.

(** * Further properties of the code *)

(** ** Persistence on arbitrary files *)







(** ** The loops on arbitrary collections *)

Lemma elements_pure j w : ∃ r, elements j w = (r, w).
Proof.
  destruct j as [l|r|[| | |s]]; simpl; try (by eexists).
  - destruct (bool_decide (r = ∅)); by eexists.
  - destruct (bool_decide (s = "")); by eexists.
Qed.

Lemma list_comp_pure key id l w :
  ∃ r, list_comp (keep_body key id) l w = (r, w).
Proof.
  destruct (identified_dec key l) as [HF|Hn].
  - eexists. by apply list_comp_identified.
  - eexists. by apply list_comp_missing.
Qed.

Lemma for_each_pure key id new_info l w :
  ∃ r, for_each (update_body key id new_info) l w = (r, w).
Proof.
  destruct (identified_dec key l) as [HF|Hn].
  - eexists. by apply for_each_identified.
  - eexists. by apply for_each_missing.
Qed.

Lemma for_in_files key id l w :
  ∃ r out, for_in (show_body key id) l w
           = (r, World (files w) (stdout w ++ out)).
Proof.
  destruct (identified_dec key l) as [HF|Hn].
  - do 2 eexists. by apply for_in_identified.
  - destruct (for_in_missing key id l w Hn) as [out Hout]. by do 2 eexists.
Qed.

Lemma own_file_only_lookup cls w w' other :
  own_file_only cls w w' → other ≠ FILE cls →
  files w' !! other = files w !! other.
Proof.
  intros [->|[c ->]] Hne; [done |]. by rewrite lookup_insert_ne.
Qed.

Lemma create_own_file cls `{ToDict A} (obj : A) w :
  own_file_only cls w (create cls obj w).2.
Proof.
  unfold create, own_file_only.
  destruct (Persistence.load_data (FILE cls) w) as [[j|e] w0] eqn:Hl;
    pose proof (load_data_files _ _ _ _ Hl) as Hf.
  - erewrite bind_ok; [|exact Hl]. destruct j as [l|r|v].
    + right. eexists. simpl. by rewrite Hf.
    + left. done.
    + left. done.
  - erewrite bind_raise; [|exact Hl]. by left.
Qed.

Lemma delete_own_file cls id w : own_file_only cls w (delete cls id w).2.
Proof.
  unfold delete, own_file_only.
  destruct (Persistence.load_data (FILE cls) w) as [[j|e] w0] eqn:Hl;
    pose proof (load_data_files _ _ _ _ Hl) as Hf.
  - erewrite bind_ok; [|exact Hl].
    destruct (elements_pure j w0) as [[hs|e] He].
    + erewrite bind_ok; [|exact He].
      destruct (list_comp_pure (KEY cls) id hs w0) as [[l'|e] Hc].
      * erewrite bind_ok; [|exact Hc]. right. eexists. simpl. by rewrite Hf.
      * erewrite bind_raise; [|exact Hc]. by left.
    + erewrite bind_raise; [|exact He]. by left.
  - erewrite bind_raise; [|exact Hl]. by left.
Qed.

Lemma modify_own_file cls id new_info w :
  own_file_only cls w (modify cls id new_info w).2.
Proof.
  unfold modify, own_file_only.
  destruct (Persistence.load_data (FILE cls) w) as [[j|e] w0] eqn:Hl;
    pose proof (load_data_files _ _ _ _ Hl) as Hf.
  - erewrite bind_ok; [|exact Hl].
    destruct (elements_pure j w0) as [[hs|e] He].
    + erewrite bind_ok; [|exact He].
      destruct (for_each_pure (KEY cls) id new_info hs w0) as [[l'|e] Hc].
      * erewrite bind_ok; [|exact Hc]. right. eexists. simpl. by rewrite Hf.
      * erewrite bind_raise; [|exact Hc]. by left.
    + erewrite bind_raise; [|exact He]. by left.
  - erewrite bind_raise; [|exact Hl]. by left.
Qed.

Lemma display_files cls id w : files (display cls id w).2 = files w.
Proof.
  unfold display.
  destruct (Persistence.load_data (FILE cls) w) as [[j|e] w0] eqn:Hl;
    pose proof (load_data_files _ _ _ _ Hl) as Hf.
  - erewrite bind_ok; [|exact Hl].
    destruct (elements_pure j w0) as [[hs|e] He].
    + erewrite bind_ok; [|exact He].
      destruct (for_in_files (KEY cls) id hs w0) as (r & out & Hc).
      change (for_in _ hs w0) with (for_in (show_body (KEY cls) id) hs w0).
      by rewrite Hc.
    + by erewrite bind_raise; [|exact He].
  - by erewrite bind_raise; [|exact Hl].
Qed.

(** ** What the managers leave alone *)

(** X4. No manager method changes a file other than its own [FILE], whatever
    the files hold and whether the method returns or raises. *)
Theorem managers_leave_other_files (cls : Manager) `{ToDict A} (obj : A)
    (id : value) (new_info : record) (w : world) (other : string) :
  other ≠ FILE cls →
  files (create cls obj w).2 !! other = files w !! other
  ∧ files (delete cls id w).2 !! other = files w !! other
  ∧ files (display cls id w).2 !! other = files w !! other
  ∧ files (modify cls id new_info w).2 !! other = files w !! other.
Proof.
  intros Hne. repeat split.
  - exact (own_file_only_lookup cls _ _ _ (create_own_file cls obj w) Hne).
  - exact (own_file_only_lookup cls _ _ _ (delete_own_file cls id w) Hne).
  - by rewrite display_files.
  - exact (own_file_only_lookup cls _ _ _ (modify_own_file cls id new_info w) Hne).
Qed.

Lemma managers_leave_other_files_witness :
  "customers.json" ≠ FILE HotelManager.cls
  ∧ files (HotelManager.create_hotel test_hotel
             (three_files [] [to_dict test_customer] [])).2 !! "customers.json"
    = Some (Doc (JArr [to_dict test_customer]))
  ∧ files (HotelManager.delete_hotel (VStr "1")
             (three_files [] [to_dict test_customer] [])).2 !! "customers.json"
    = Some (Doc (JArr [to_dict test_customer])).
Proof.
  split; [done |].
  destruct (managers_leave_other_files HotelManager.cls test_hotel (VStr "1") ∅
              (three_files [] [to_dict test_customer] []) "customers.json")
    as (Hc & Hd & _); [done |].
  unfold HotelManager.create_hotel, HotelManager.delete_hotel.
  rewrite Hc, Hd. split; reflexivity.
Defined.

(** X5. Display never writes: after it, returned or raised, every file is as
    it was. *)
Theorem display_writes_nothing (cls : Manager) (id : value) (w : world) :
  files (display cls id w).2 = files w.
Proof. apply display_files. Qed.

(** ** Files that do not hold a collection *)

(** X6. On a file whose bytes do not decode, every manager method raises
    [UnicodeDecodeError]; nothing is printed and nothing is written. *)
Theorem managers_on_undecodable_file (cls : Manager) `{ToDict A} (obj : A)
    (id : value) (new_info : record) (w : world) :
  files w !! FILE cls = Some NotUtf8 →
  create cls obj w = (Raise UnicodeDecodeError, w)
  ∧ delete cls id w = (Raise UnicodeDecodeError, w)
  ∧ display cls id w = (Raise UnicodeDecodeError, w)
  ∧ modify cls id new_info w = (Raise UnicodeDecodeError, w).
Proof.
  intros Hf.
  assert (Persistence.load_data (FILE cls) w = (Raise UnicodeDecodeError, w))
    as Hl.
  { unfold Persistence.load_data. by rewrite Hf. }
  repeat split; by apply bind_raise.
Qed.

Lemma managers_on_undecodable_file_witness :
  files (disk "hotels.json" NotUtf8) !! FILE HotelManager.cls = Some NotUtf8
  ∧ HotelManager.create_hotel test_hotel (disk "hotels.json" NotUtf8)
    = (Raise UnicodeDecodeError, disk "hotels.json" NotUtf8)
  ∧ HotelManager.delete_hotel (VStr "1") (disk "hotels.json" NotUtf8)
    = (Raise UnicodeDecodeError, disk "hotels.json" NotUtf8)
  ∧ HotelManager.display_hotel (VStr "1") (disk "hotels.json" NotUtf8)
    = (Raise UnicodeDecodeError, disk "hotels.json" NotUtf8)
  ∧ HotelManager.modify_hotel (VStr "1") ∅ (disk "hotels.json" NotUtf8)
    = (Raise UnicodeDecodeError, disk "hotels.json" NotUtf8).
Proof.
  split; [reflexivity |].
  apply (managers_on_undecodable_file HotelManager.cls test_hotel (VStr "1") ∅
           (disk "hotels.json" NotUtf8)).
  reflexivity.
Defined.





(** X9. When the manager's file holds a JSON document that is not an array
    (an object or a scalar), create raises [AttributeError] and writes
    nothing. *)
Theorem create_on_non_array (cls : Manager) `{ToDict A} (obj : A)
    (j : json) (w : world) :
  files w !! FILE cls = Some (Doc j) →
  (∀ l, j ≠ JArr l) →
  create cls obj w = (Raise AttributeError, w).
Proof.
  intros Hf Hj. unfold create.
  erewrite bind_ok; [|by apply load_data_doc].
  destruct j as [l|r|v]; [by destruct (Hj l) | done | done].
Qed.

Lemma create_on_non_array_witness :
  files (disk "hotels.json" (Doc (JVal (VInt 42)))) !! FILE HotelManager.cls
  = Some (Doc (JVal (VInt 42)))
  ∧ (∀ l, JVal (VInt 42) ≠ JArr l)
  ∧ HotelManager.create_hotel test_hotel
      (disk "hotels.json" (Doc (JVal (VInt 42))))
    = (Raise AttributeError, disk "hotels.json" (Doc (JVal (VInt 42)))).
Proof.
  split; [reflexivity |]. split; [done |].
  apply (create_on_non_array HotelManager.cls test_hotel (JVal (VInt 42))
           (disk "hotels.json" (Doc (JVal (VInt 42))))); [reflexivity | done].
Defined.

(** ** How the methods compose *)


Lemma others_idem key id l :
  others key id (others key id l) = others key id l.
Proof. apply others_all, others_none_match. Qed.


Lemma merged_empty key id h : merged key id ∅ h = h.
Proof.
  unfold merged. destruct (carries key id h); [|done].
  by rewrite (left_id_L ∅ (∪)).
Qed.



(** X10. Deleting the same identifier a second time changes nothing more:
    on a collection of identified records, two deletes in a row leave the
    world one delete leaves. *)
Theorem delete_twice (cls : Manager) (id : value) (w w0 : world)
    (l : list record) :
  Persistence.load_data (FILE cls) w = (Ok (JArr l), w0) →
  identified (KEY cls) l →
  (_ ← delete cls id; delete cls id) w = delete cls id w.
Proof.
  intros Hl HF. rewrite (delete_ok cls id w l w0 Hl HF).
  erewrite bind_ok; [|by apply delete_ok].
  erewrite delete_ok;
    [|apply load_data_after_save | by apply others_identified].
  by rewrite others_idem, write_file_twice.
Qed.

Lemma delete_twice_witness :
  Persistence.load_data (FILE HotelManager.cls)
    (stored HotelManager.cls three_hotels)
  = (Ok (JArr three_hotels), stored HotelManager.cls three_hotels)
  ∧ identified (KEY HotelManager.cls) three_hotels
  ∧ (_ ← HotelManager.delete_hotel (VStr "1");
     HotelManager.delete_hotel (VStr "1"))
      (stored HotelManager.cls three_hotels)
    = HotelManager.delete_hotel (VStr "1") (stored HotelManager.cls three_hotels).
Proof.
  assert (identified (KEY HotelManager.cls) three_hotels) as HF.
  { unfold identified. repeat (constructor; [by eexists |]). constructor. }
  split; [reflexivity |]. split; [exact HF |].
  exact (delete_twice HotelManager.cls (VStr "1")
           (stored HotelManager.cls three_hotels)
           (stored HotelManager.cls three_hotels) three_hotels eq_refl HF).
Defined.





Lemma create_then_delete_eq cls `{ToDict A} (obj : A) id l :
  identified (KEY cls) l →
  to_dict obj !! KEY cls = Some id →
  others (KEY cls) id (l ++ [to_dict obj]) = others (KEY cls) id l.
Proof.
  intros _ Hid. unfold others. rewrite List.filter_app. simpl.
  rewrite (carries_lookup _ _ _ _ Hid), py_eq_refl. simpl. apply app_nil_r.
Qed.



(** ** Modify *)

Lemma fmap_merged_empty key id (l : list record) :
  merged key id ∅ <$> l = l.
Proof.
  induction l as [|h t IH]; [done |].
  cbn [fmap list_fmap]. rewrite merged_empty. f_equal. exact IH.
Qed.




(** X14. Modify with an empty [new_info] changes nothing: on a stored
    collection of identified records the world after it is the world
    before. *)
Theorem modify_with_nothing (cls : Manager) (id : value) (w : world)
    (l : list record) :
  files w !! FILE cls = Some (Doc (JArr l)) →
  identified (KEY cls) l →
  modify cls id ∅ w = (Ok (), w).
Proof.
  intros Hf HF.
  rewrite (modify_ok cls id ∅ w l w (load_data_doc _ _ _ Hf) HF).
  rewrite fmap_merged_empty. by rewrite write_file_same.
Qed.

Lemma modify_with_nothing_witness :
  files (stored HotelManager.cls three_hotels) !! FILE HotelManager.cls
  = Some (Doc (JArr three_hotels))
  ∧ identified (KEY HotelManager.cls) three_hotels
  ∧ HotelManager.modify_hotel (VStr "1") ∅ (stored HotelManager.cls three_hotels)
    = (Ok (), stored HotelManager.cls three_hotels).
Proof.
  assert (identified (KEY HotelManager.cls) three_hotels) as HF.
  { unfold identified. repeat (constructor; [by eexists |]). constructor. }
  split; [reflexivity |]. split; [exact HF |].
  exact (modify_with_nothing HotelManager.cls (VStr "1")
           (stored HotelManager.cls three_hotels) three_hotels eq_refl HF).
Defined.





(** ** Invariants and independence *)





(** ** Entities *)

(** X19. The dict of an entity determines the entity: two hotels, two
    customers or two reservations with the same [to_dict] have the same
    attributes. *)
Theorem to_dict_determines_entity (h1 h2 : Hotel.t) (c1 c2 : Customer.t)
    (r1 r2 : Reservation.t) :
  (to_dict h1 = to_dict h2 → h1 = h2)
  ∧ (to_dict c1 = to_dict c2 → c1 = c2)
  ∧ (to_dict r1 = to_dict r2 → r1 = r2).
Proof.
  repeat split; intros Heq.
  - destruct h1 as [i1 n1 p1 a1], h2 as [i2 n2 p2 a2].
    pose proof (f_equal (λ d : record, d !! "hotel_id") Heq) as Hi.
    pose proof (f_equal (λ d : record, d !! "name") Heq) as Hn.
    pose proof (f_equal (λ d : record, d !! "location") Heq) as Hp.
    pose proof (f_equal (λ d : record, d !! "rooms_available") Heq) as Ha.
    vm_compute in Hi, Hn, Hp, Ha. congruence.
  - destruct c1 as [i1 n1 e1], c2 as [i2 n2 e2].
    pose proof (f_equal (λ d : record, d !! "customer_id") Heq) as Hi.
    pose proof (f_equal (λ d : record, d !! "name") Heq) as Hn.
    pose proof (f_equal (λ d : record, d !! "email") Heq) as He.
    vm_compute in Hi, Hn, He. congruence.
  - destruct r1 as [i1 n1 e1], r2 as [i2 n2 e2].
    pose proof (f_equal (λ d : record, d !! "reservation_id") Heq) as Hi.
    pose proof (f_equal (λ d : record, d !! "customer_id") Heq) as Hn.
    pose proof (f_equal (λ d : record, d !! "hotel_id") Heq) as He.
    vm_compute in Hi, Hn, He. congruence.
Qed.

Lemma to_dict_determines_entity_witness :
  to_dict test_hotel = to_dict (Hotel.mk (VStr "1") (VStr "Grand Plaza")
                                  (VStr "New York") (VInt 100))
  ∧ test_hotel = Hotel.mk (VStr "1") (VStr "Grand Plaza") (VStr "New York")
                   (VInt 100).
Proof.
  split; [reflexivity |].
  apply (to_dict_determines_entity test_hotel
           (Hotel.mk (VStr "1") (VStr "Grand Plaza") (VStr "New York") (VInt 100))
           test_customer test_customer test_reservation test_reservation).
  reflexivity.
Defined.

(** ** The test suite *)

Import TestHotelReservationSystem.

Lemma call_ok {A} (m : M A) (rest : A → T) w a w' :
  m w = (Ok a, w') → call m rest w = rest a w'.
Proof. intros Hm. unfold call. by rewrite Hm. Qed.

Lemma any_loop_identified key id l w :
  identified key l →
  any_loop key id l w = (Ok (existsb (carries key id) l), w).
Proof.
  induction 1 as [|h t [v Hv] _ IH]; [done |].
  cbn [any_loop existsb]. erewrite bind_ok; [|by apply getitem_some].
  rewrite (carries_lookup _ _ _ _ Hv). by destruct (py_eq v id).
Qed.

Lemma any_eq_identified key id l w :
  identified key l →
  any_eq key id (JArr l) w = (Ok (existsb (carries key id) l), w).
Proof.
  intros HF. unfold any_eq. erewrite bind_ok; [|apply ret_eq].
  by apply any_loop_identified.
Qed.

Lemma existsb_created key id l r :
  carries key id r = true → existsb (carries key id) (l ++ [r]) = true.
Proof.
  intros Hr. rewrite existsb_app. simpl. rewrite Hr.
  by destruct (existsb (carries key id) l).
Qed.

Lemma existsb_others key id l :
  existsb (carries key id) (others key id l) = false.
Proof.
  unfold others. induction l as [|h t IH]; [done |]. simpl.
  destruct (carries key id h) eqn:Hc; simpl; [done |]. by rewrite Hc.
Qed.

(** A test that creates [obj] through [cls] and looks for its identifier. *)
Lemma create_and_find cls `{ToDict A} (obj : A) id w w0 l :
  Persistence.load_data (FILE cls) w = (Ok (JArr l), w0) →
  identified (KEY cls) l →
  to_dict obj !! KEY cls = Some id →
  call (create cls obj) (λ _,
  call (Persistence.load_data (FILE cls)) (λ hotels,
  call (any_eq (KEY cls) id hotels) (λ found,
  assertTrue found finish))) w
  = (Passed, write_file (FILE cls) (Doc (JArr (l ++ [to_dict obj]))) w0).
Proof.
  intros Hl HF Hid.
  erewrite call_ok; [|by apply create_ok].
  erewrite call_ok; [|apply load_data_after_save].
  erewrite call_ok;
    [|apply any_eq_identified, identified_app; [done | by eexists]].
  rewrite existsb_created; [done |].
  by rewrite (carries_lookup _ _ _ _ Hid), py_eq_refl.
Qed.

Lemma create_and_cancel_run w w0 l :
  Persistence.load_data "reservations.json" w = (Ok (JArr l), w0) →
  identified "reservation_id" l →
  test_create_and_cancel_reservation w
  = (Passed,
     write_file "reservations.json"
       (Doc (JArr (others "reservation_id" (VStr "1") l))) w0).
Proof.
  intros Hl HF. unfold test_create_and_cancel_reservation.
  pose proof (create_then_delete_eq ReservationManager.cls reservation
                (VStr "1") l HF eq_refl) as Ho.
  assert (identified "reservation_id" (l ++ [to_dict reservation])) as HF'.
  { apply identified_app; [done | by eexists]. }
  erewrite call_ok; [|by apply (create_ok ReservationManager.cls)].
  erewrite call_ok; [|apply load_data_after_save].
  erewrite call_ok; [|by apply any_eq_identified].
  rewrite existsb_created by done. unfold assertTrue.
  erewrite call_ok;
    [|apply (delete_ok ReservationManager.cls);
      [apply load_data_after_save | exact HF']].
  erewrite call_ok; [|apply load_data_after_save].
  erewrite call_ok;
    [|apply any_eq_identified, (others_identified "reservation_id"), HF'].
  rewrite existsb_others. unfold assertFalse, finish.
  rewrite Ho, !write_file_twice. reflexivity.
Qed.

(** X20. On collections of identified records (also from a missing file or
    from text that is not JSON) the two create-and-display tests pass, and
    each leaves its record behind: the file it used holds one entry more
    than before the test. *)
Theorem create_and_display_tests_pass (w wh wc : world)
    (hs cs : list record) :
  Persistence.load_data "hotels.json" w = (Ok (JArr hs), wh) →
  identified "hotel_id" hs →
  Persistence.load_data "customers.json" w = (Ok (JArr cs), wc) →
  identified "customer_id" cs →
  TestHotelReservationSystem.test_create_and_display_hotel w
  = (Passed, write_file "hotels.json" (Doc (JArr (hs ++ [to_dict test_hotel]))) wh)
  ∧ TestHotelReservationSystem.test_create_and_display_customer w
    = (Passed,
       write_file "customers.json" (Doc (JArr (cs ++ [to_dict test_customer]))) wc).
Proof.
  intros Hh HFh Hc HFc. split.
  - exact (create_and_find HotelManager.cls test_hotel (VStr "1") w wh hs
             Hh HFh eq_refl).
  - exact (create_and_find CustomerManager.cls test_customer (VStr "1") w wc cs
             Hc HFc eq_refl).
Qed.

Lemma create_and_display_tests_pass_witness :
  Persistence.load_data "hotels.json" empty_disk = (Ok (JArr []), empty_disk)
  ∧ identified "hotel_id" []
  ∧ Persistence.load_data "customers.json" empty_disk
    = (Ok (JArr []), empty_disk)
  ∧ identified "customer_id" []
  ∧ TestHotelReservationSystem.test_create_and_display_hotel empty_disk
    = (Passed, stored HotelManager.cls [to_dict test_hotel])
  ∧ TestHotelReservationSystem.test_create_and_display_customer empty_disk
    = (Passed, stored CustomerManager.cls [to_dict test_customer]).
Proof.
  split; [reflexivity |]. split; [constructor |].
  split; [reflexivity |]. split; [constructor |].
  destruct (create_and_display_tests_pass empty_disk empty_disk empty_disk
              [] [] eq_refl (Forall_nil_2 _) eq_refl (Forall_nil_2 _))
    as [Hh Hc].
  rewrite Hh, Hc. split; vm_compute; reflexivity.
Defined.

(** X21. On a collection of identified reservations the create-and-cancel
    test passes, and it removes every stored reservation whose identifier
    is ['1']: the file is left holding the other entries only. *)
Theorem create_and_cancel_test_passes (w w0 : world) (l : list record) :
  Persistence.load_data "reservations.json" w = (Ok (JArr l), w0) →
  identified "reservation_id" l →
  TestHotelReservationSystem.test_create_and_cancel_reservation w
  = (Passed,
     write_file "reservations.json"
       (Doc (JArr (others "reservation_id" (VStr "1") l))) w0)
  ∧ matching "reservation_id" (VStr "1")
      (others "reservation_id" (VStr "1") l) = [].
Proof.
  intros Hl HF. split; [by apply create_and_cancel_run |].
  apply others_none_match.
Qed.

Lemma create_and_cancel_test_passes_witness :
  Persistence.load_data "reservations.json"
    (stored ReservationManager.cls
       [to_dict test_reservation; to_dict other_reservation])
  = (Ok (JArr [to_dict test_reservation; to_dict other_reservation]),
     stored ReservationManager.cls
       [to_dict test_reservation; to_dict other_reservation])
  ∧ identified "reservation_id"
      [to_dict test_reservation; to_dict other_reservation]
  ∧ TestHotelReservationSystem.test_create_and_cancel_reservation
      (stored ReservationManager.cls
         [to_dict test_reservation; to_dict other_reservation])
    = (Passed, stored ReservationManager.cls [to_dict other_reservation]).
Proof.
  assert (identified "reservation_id"
            [to_dict test_reservation; to_dict other_reservation]) as HF.
  { unfold identified. repeat (constructor; [by eexists |]). constructor. }
  split; [reflexivity |]. split; [exact HF |].
  destruct (create_and_cancel_test_passes
              (stored ReservationManager.cls
                 [to_dict test_reservation; to_dict other_reservation])
              (stored ReservationManager.cls
                 [to_dict test_reservation; to_dict other_reservation])
              [to_dict test_reservation; to_dict other_reservation]
              eq_refl HF) as [Hr _].
  rewrite Hr. vm_compute. reflexivity.
Defined.

(** X22. Run on a disk whose three files hold collections of identified
    records, the suite reports three passes, prints nothing, and changes the
    data: one more hotel, one more customer, and no reservation with
    identifier ['1'] left. *)
Theorem main_passes_and_changes_files (w : world) (hs cs rs : list record) :
  files w !! "hotels.json" = Some (Doc (JArr hs)) →
  files w !! "customers.json" = Some (Doc (JArr cs)) →
  files w !! "reservations.json" = Some (Doc (JArr rs)) →
  identified "hotel_id" hs →
  identified "customer_id" cs →
  identified "reservation_id" rs →
  TestHotelReservationSystem.main w
  = ([Passed; Passed; Passed],
     World
       (<["hotels.json" := Doc (JArr (hs ++ [to_dict test_hotel]))]>
         (<["customers.json" := Doc (JArr (cs ++ [to_dict test_customer]))]>
           (<["reservations.json" :=
                Doc (JArr (others "reservation_id" (VStr "1") rs))]>
             (files w))))
       (stdout w)).
Proof.
  intros Hh Hc Hr HFh HFc HFr. unfold main. cbn [run].
  assert (to_dict test_customer !! KEY CustomerManager.cls = Some (VStr "1"))
    as Hidc by reflexivity.
  assert (to_dict test_hotel !! KEY HotelManager.cls = Some (VStr "1"))
    as Hidh by reflexivity.
  rewrite (create_and_cancel_run w w rs (load_data_doc _ _ _ Hr) HFr).
  set (w1 := write_file "reservations.json" _ w).
  assert (Persistence.load_data "customers.json" w1 = (Ok (JArr cs), w1)) as Hc1.
  { apply load_data_doc. simpl. by rewrite lookup_insert_ne. }
  change TestHotelReservationSystem.test_create_and_display_customer with
    (call (create CustomerManager.cls test_customer) (λ _,
     call (Persistence.load_data (FILE CustomerManager.cls)) (λ hotels,
     call (any_eq (KEY CustomerManager.cls) (VStr "1") hotels) (λ found,
     assertTrue found finish)))).
  rewrite (create_and_find CustomerManager.cls test_customer (VStr "1")
             w1 w1 cs Hc1 HFc Hidc).
  set (w2 := write_file (FILE CustomerManager.cls) _ w1).
  assert (Persistence.load_data "hotels.json" w2 = (Ok (JArr hs), w2)) as Hh2.
  { apply load_data_doc. simpl. by rewrite !lookup_insert_ne. }
  change TestHotelReservationSystem.test_create_and_display_hotel with
    (call (create HotelManager.cls test_hotel) (λ _,
     call (Persistence.load_data (FILE HotelManager.cls)) (λ hotels,
     call (any_eq (KEY HotelManager.cls) (VStr "1") hotels) (λ found,
     assertTrue found finish)))).
  rewrite (create_and_find HotelManager.cls test_hotel (VStr "1")
             w2 w2 hs Hh2 HFh Hidh).
  reflexivity.
Qed.

Lemma main_passes_and_changes_files_witness :
  files (three_files [] [] [to_dict test_reservation]) !! "hotels.json"
  = Some (Doc (JArr []))
  ∧ files (three_files [] [] [to_dict test_reservation]) !! "customers.json"
    = Some (Doc (JArr []))
  ∧ files (three_files [] [] [to_dict test_reservation]) !! "reservations.json"
    = Some (Doc (JArr [to_dict test_reservation]))
  ∧ identified "hotel_id" []
  ∧ identified "customer_id" []
  ∧ identified "reservation_id" [to_dict test_reservation]
  ∧ TestHotelReservationSystem.main
      (three_files [] [] [to_dict test_reservation])
    = ([Passed; Passed; Passed],
       three_files [to_dict test_hotel] [to_dict test_customer] []).
Proof.
  assert (identified "reservation_id" [to_dict test_reservation]) as HF.
  { unfold identified. repeat (constructor; [by eexists |]). constructor. }
  split; [reflexivity |]. split; [reflexivity |]. split; [reflexivity |].
  split; [constructor |]. split; [constructor |]. split; [exact HF |].
  rewrite (main_passes_and_changes_files
             (three_files [] [] [to_dict test_reservation])
             [] [] [to_dict test_reservation]
             eq_refl eq_refl eq_refl (Forall_nil_2 _) (Forall_nil_2 _) HF).
  vm_compute. reflexivity.
Defined.

(** What the tests can report on an arbitrary disk. *)

Lemma create_inv cls `{ToDict A} (obj : A) w w1 :
  create cls obj w = (Ok (), w1) →
  ∃ l w0, w1 = write_file (FILE cls) (Doc (JArr (l ++ [to_dict obj]))) w0.
Proof.
  unfold create.
  destruct (Persistence.load_data (FILE cls) w) as [[j|e] w0] eqn:Hl.
  - erewrite bind_ok; [|exact Hl]. destruct j as [l|r|v]; simpl.
    + intros [= <-]. by exists l, w0.
    + unfold mbind, M_bind, raise. discriminate.
    + unfold mbind, M_bind, raise. discriminate.
  - erewrite bind_raise; [|exact Hl]. discriminate.
Qed.

Lemma any_loop_created key id l r w :
  carries key id r = true →
  any_loop key id (l ++ [r]) w = (Ok true, w)
  ∨ any_loop key id (l ++ [r]) w = (Raise (KeyError key), w).
Proof.
  intros Hr. induction l as [|h t IH]; cbn [app any_loop].
  - left. unfold carries in Hr. destruct (r !! key) as [v|] eqn:Hv; [|done].
    erewrite bind_ok; [|by apply getitem_some]. by rewrite Hr.
  - destruct (h !! key) as [v|] eqn:Hv.
    + erewrite bind_ok; [|by apply getitem_some].
      destruct (py_eq v id); [by left | exact IH].
    + right. by apply bind_raise, getitem_none.
Qed.

Lemma create_and_find_verdict cls `{ToDict A} (obj : A) id (rest : T) w :
  to_dict obj !! KEY cls = Some id →
  (∃ e w', call (create cls obj) (λ _,
           call (Persistence.load_data (FILE cls)) (λ hotels,
           call (any_eq (KEY cls) id hotels) (λ found,
           assertTrue found rest))) w = (Errored e, w'))
  ∨ (∃ l w0,
       call (create cls obj) (λ _,
       call (Persistence.load_data (FILE cls)) (λ hotels,
       call (any_eq (KEY cls) id hotels) (λ found,
       assertTrue found rest))) w
       = rest (write_file (FILE cls) (Doc (JArr (l ++ [to_dict obj]))) w0)).
Proof.
  intros Hid.
  destruct (create cls obj w) as [[[]|e] w1] eqn:Hc.
  - destruct (create_inv cls obj w w1 Hc) as (l & w0 & ->).
    erewrite call_ok; [|exact Hc].
    erewrite call_ok; [|apply load_data_after_save].
    assert (carries (KEY cls) id (to_dict obj) = true) as Hr.
    { by rewrite (carries_lookup _ _ _ _ Hid), py_eq_refl. }
    destruct (any_loop_created (KEY cls) id l (to_dict obj)
                (write_file (FILE cls) (Doc (JArr (l ++ [to_dict obj]))) w0) Hr)
      as [Hany|Hany].
    + right. exists l, w0.
      assert (any_eq (KEY cls) id (JArr (l ++ [to_dict obj]))
                (write_file (FILE cls) (Doc (JArr (l ++ [to_dict obj]))) w0)
              = (Ok true,
                 write_file (FILE cls) (Doc (JArr (l ++ [to_dict obj]))) w0))
        as Hany'.
      { unfold any_eq. erewrite bind_ok; [|apply ret_eq]. exact Hany. }
      by rewrite (call_ok _ _ _ _ _ Hany').
    + left. do 2 eexists. unfold call at 1, any_eq.
      erewrite bind_ok; [|apply ret_eq]. by rewrite Hany.
  - left. exists e, w1. unfold call at 1. by rewrite Hc.
Qed.

(** X23. No test of the suite can fail an assertion.  On every disk each
    test method either passes or ends with an exception: the record it looks
    for is the one it has just created, and the identifier it expects gone
    is the one it has just deleted. *)
Theorem tests_never_fail (w : world) :
  (TestHotelReservationSystem.test_create_and_display_hotel w).1 ≠ Failed
  ∧ (TestHotelReservationSystem.test_create_and_display_customer w).1 ≠ Failed
  ∧ (TestHotelReservationSystem.test_create_and_cancel_reservation w).1
    ≠ Failed.
Proof.
  assert (to_dict test_hotel !! KEY HotelManager.cls = Some (VStr "1"))
    as Hidh by reflexivity.
  assert (to_dict test_customer !! KEY CustomerManager.cls = Some (VStr "1"))
    as Hidc by reflexivity.
  assert (to_dict test_reservation !! KEY ReservationManager.cls
          = Some (VStr "1")) as Hidr by reflexivity.
  repeat split.
  - destruct (create_and_find_verdict HotelManager.cls test_hotel (VStr "1")
                finish w Hidh) as [(e & w' & Hv)|(l & w0 & Hv)];
      change TestHotelReservationSystem.test_create_and_display_hotel with
        (call (create HotelManager.cls test_hotel) (λ _,
         call (Persistence.load_data (FILE HotelManager.cls)) (λ hotels,
         call (any_eq (KEY HotelManager.cls) (VStr "1") hotels) (λ found,
         assertTrue found finish))));
      by rewrite Hv.
  - destruct (create_and_find_verdict CustomerManager.cls test_customer
                (VStr "1") finish w Hidc) as [(e & w' & Hv)|(l & w0 & Hv)];
      change TestHotelReservationSystem.test_create_and_display_customer with
        (call (create CustomerManager.cls test_customer) (λ _,
         call (Persistence.load_data (FILE CustomerManager.cls)) (λ hotels,
         call (any_eq (KEY CustomerManager.cls) (VStr "1") hotels) (λ found,
         assertTrue found finish))));
      by rewrite Hv.
  - set (rest := call (ReservationManager.cancel_reservation (VStr "1")) (λ _,
       call (Persistence.load_data "reservations.json") (λ reservations,
       call (any_eq "reservation_id" (VStr "1") reservations) (λ found,
       assertFalse found finish)))).
    change TestHotelReservationSystem.test_create_and_cancel_reservation with
      (call (create ReservationManager.cls test_reservation) (λ _,
       call (Persistence.load_data (FILE ReservationManager.cls)) (λ hotels,
       call (any_eq (KEY ReservationManager.cls) (VStr "1") hotels) (λ found,
       assertTrue found rest)))).
    destruct (create_and_find_verdict ReservationManager.cls test_reservation
                (VStr "1") rest w Hidr) as [(e & w' & Hv)|(l & w0 & Hv)];
      rewrite Hv; [done |].
    set (l1 := l ++ [to_dict test_reservation]).
    set (w1 := write_file _ _ w0).
    assert (Persistence.load_data (FILE ReservationManager.cls) w1
            = (Ok (JArr l1), w1)) as Hl1 by apply load_data_after_save.
    unfold rest, ReservationManager.cancel_reservation.
    destruct (identified_dec (KEY ReservationManager.cls) l1) as [HF|Hn].
    + erewrite call_ok; [|by apply delete_ok].
      erewrite call_ok; [|apply load_data_after_save].
      erewrite call_ok; [|by apply any_eq_identified, others_identified].
      by rewrite existsb_others.
    + unfold call at 1.
      by rewrite (delete_missing ReservationManager.cls (VStr "1") w1 l1 w1 Hl1 Hn).
Qed.

(** ** A stored document that cannot be looped over as records *)

(** X24. When the manager's file holds a non-empty JSON object, a non-empty
    JSON string, or [null], a boolean or a number, then delete, display and
    modify raise [TypeError]; nothing is printed and nothing is written. *)
Theorem loops_on_non_array (cls : Manager) (id : value) (new_info : record)
    (j : json) (w : world) :
  files w !! FILE cls = Some (Doc j) →
  (∀ l, j ≠ JArr l) → j ≠ JObj ∅ → j ≠ JVal (VStr "") →
  delete cls id w = (Raise TypeError, w)
  ∧ display cls id w = (Raise TypeError, w)
  ∧ modify cls id new_info w = (Raise TypeError, w).
Proof.
  intros Hf Harr Hobj Hstr.
  assert (elements j w = (Raise TypeError, w)) as He.
  { destruct j as [l|r|[| | |s]]; simpl.
    - by destruct (Harr l).
    - rewrite bool_decide_eq_false_2; [done |]. congruence.
    - done.
    - done.
    - done.
    - rewrite bool_decide_eq_false_2; [done |]. congruence. }
  pose proof (load_data_doc _ _ _ Hf) as Hl.
  repeat split.
  - unfold delete. erewrite bind_ok; [|exact Hl]. by apply bind_raise.
  - unfold display. erewrite bind_ok; [|exact Hl]. by apply bind_raise.
  - unfold modify. erewrite bind_ok; [|exact Hl]. by apply bind_raise.
Qed.

Lemma loops_on_non_array_witness :
  files (disk "hotels.json" (Doc (JObj anonymous))) !! FILE HotelManager.cls
  = Some (Doc (JObj anonymous))
  ∧ (∀ l, JObj anonymous ≠ JArr l)
  ∧ JObj anonymous ≠ JObj ∅
  ∧ JObj anonymous ≠ JVal (VStr "")
  ∧ HotelManager.delete_hotel (VStr "1") (disk "hotels.json" (Doc (JObj anonymous)))
    = (Raise TypeError, disk "hotels.json" (Doc (JObj anonymous)))
  ∧ HotelManager.display_hotel (VStr "1")
      (disk "hotels.json" (Doc (JObj anonymous)))
    = (Raise TypeError, disk "hotels.json" (Doc (JObj anonymous)))
  ∧ HotelManager.modify_hotel (VStr "1") ∅
      (disk "hotels.json" (Doc (JObj anonymous)))
    = (Raise TypeError, disk "hotels.json" (Doc (JObj anonymous))).
Proof.
  assert (JObj anonymous ≠ JObj ∅) as Hne.
  { intros Heq.
    apply (f_equal (λ j, match j with JObj d => d !! "name" | _ => None end))
      in Heq.
    vm_compute in Heq. discriminate Heq. }
  split; [reflexivity |]. split; [done |]. split; [exact Hne |].
  split; [done |].
  apply (loops_on_non_array HotelManager.cls (VStr "1") ∅ (JObj anonymous)
           (disk "hotels.json" (Doc (JObj anonymous))));
    [reflexivity | done | exact Hne | done].
Defined.
